(** * An in-memory credential service: [authService.js]

    A shallow embedding of the [AuthService] class (methods [register] and
    [login], helpers [normalizeUsername] and [validateCredentials]) and the
    properties its specification states about it.

    - A JavaScript string is the list of its UTF-16 code units; [length] is
      the [.length] property and [=] on lists is [===] on strings.
    - [String.prototype.trim] is written out from ECMAScript's WhiteSpace and
      LineTerminator productions, all of which are single code units.
    - [String.prototype.toLowerCase] applies the Unicode case mappings; the
      service is modelled for an arbitrary such function (a Section
      variable), and [asciiToLowerCase] is the instance used on concrete
      ASCII inputs.
    - [this.users] is a [Map] from strings to account objects: a [gmap].
      The methods run in a small state monad over the service object, so
      that what a method does to [this.users] is part of its result.
    - The submit handlers of [App.js] and the card that shows their result
      come after the service; the two Python versions of the service that
      the repository's report lists are embedded at the end of the file. *)

From Stdlib Require Import NArith Ascii String Lia.
From stdpp Require Import gmap strings list fin_maps pretty.

Local Open Scope N_scope.

(** ** Strings *)

Abbreviation jsstring := (list N).

(** A string literal of the source, as code units. *)
Definition lit (s : string) : jsstring :=
  N_of_ascii <$> list_ascii_of_string s.

(** [`${n}`] for a non-negative integer [n]. *)
Definition toString (n : N) : jsstring := lit (pretty n).

(** WhiteSpace and LineTerminator code units (ECMAScript 12.2, 12.3):
    TAB, LF, VT, FF, CR, SP, NBSP, the Zs category, LS, PS and ZWNBSP. *)
Definition isWhiteSpace (c : N) : bool :=
  (9 <=? c) && (c <=? 13)
  || (c =? 32) || (c =? 160) || (c =? 5760)
  || (8192 <=? c) && (c <=? 8202)
  || (c =? 8232) || (c =? 8233) || (c =? 8239) || (c =? 8287)
  || (c =? 12288) || (c =? 65279).

Fixpoint trimStart (s : jsstring) : jsstring :=
  match s with
  | [] => []
  | c :: t => if isWhiteSpace c then trimStart t else s
  end.

Definition trimEnd (s : jsstring) : jsstring := rev (trimStart (rev s)).

Definition trim (s : jsstring) : jsstring := trimEnd (trimStart s).

(** ** Values

    The service inspects an argument only through [typeof x !== 'string'];
    a value that is not a string is represented by what [typeof] says of
    it. *)

Inductive nonStringType :=
  | TUndefined | TObject | TBoolean | TNumber | TBigInt | TSymbol | TFunction.

Inductive value :=
  | VString (s : jsstring)
  | VOther (t : nonStringType).

Definition typeof (v : value) : jsstring :=
  match v with
  | VString _ => lit "string"
  | VOther TUndefined => lit "undefined"
  | VOther TObject => lit "object"
  | VOther TBoolean => lit "boolean"
  | VOther TNumber => lit "number"
  | VOther TBigInt => lit "bigint"
  | VOther TSymbol => lit "symbol"
  | VOther TFunction => lit "function"
  end.

(** ** Results *)

Record ValidationResult := { valid : bool; error : jsstring }.

(** The [body] object has exactly one of the keys [error] and [message]. *)
Inductive Body :=
  | ErrorBody (error : jsstring)
  | MessageBody (message : jsstring).

Record Response := { status : N; body : Body }.

(** ** The store *)

Module User.
Record t := { username : jsstring; password : jsstring }.
End User.

Record AuthService := { users : gmap (list N) User.t }.

(** [new AuthService()] *)
Definition constructor : AuthService := {| users := ∅ |}.

(** How a method call completes: with a returned value, or with a thrown
    [TypeError] (a method called on something that does not have it). *)
Inductive completion (A : Type) :=
  | Return (a : A)
  | ThrowTypeError.
Arguments Return {A} a.
Arguments ThrowTypeError {A}.

(** A computation on the service object [this]. *)
Definition M (A : Type) : Type := AuthService → completion A * AuthService.

Definition ret {A} (a : A) : M A := λ this, (Return a, this).

Definition throw {A} : M A := λ this, (ThrowTypeError, this).

Definition bind {A B} (m : M A) (k : A → M B) : M B :=
  λ this,
    match m this with
    | (Return a, this') => k a this'
    | (ThrowTypeError, this') => (ThrowTypeError, this')
    end.

Notation "'let*' x := m 'in' k" := (bind m (λ x, k))
  (at level 10, x name, m at level 100, k at level 200, only parsing).
Notation "m ;;; k" := (bind m (λ _, k))
  (at level 100, k at level 200, right associativity, only parsing).

(** [this.users.has(key)], [this.users.get(key)], [this.users.set(key, v)] *)
Definition users_has (key : jsstring) : M bool :=
  λ this, (Return (bool_decide (is_Some (users this !! key))), this).

Definition users_get (key : jsstring) : M (option User.t) :=
  λ this, (Return (users this !! key), this).

Definition users_set (key : jsstring) (v : User.t) : M unit :=
  λ this, (Return tt, {| users := <[key := v]> (users this) |}).

(** ** The service *)

Definition MIN_USERNAME_LENGTH : N := 3.
Definition MIN_PASSWORD_LENGTH : N := 6.

Definition strlen (s : jsstring) : N := N.of_nat (length s).

(** [!s] for a string [s]: only the empty string is falsy. *)
Definition falsy (s : jsstring) : bool :=
  match s with [] => true | _ => false end.

(** ** The form ([App.js])

    The object that [handleRegister] and [handleLogin] pass to [setResult]:
    [{ action, status, ...response.body }]. The spread copies the body's one
    key, so [message] or [error] is present and the other is [undefined]. *)

Module Result.
Record t := {
  action : jsstring;
  status : N;
  message : option jsstring;
  error : option jsstring
}.
End Result.

(** The three lines of the "Last Response" card. A line whose expression is
    [undefined] shows nothing. *)
Record LastResponse := {
  action_line : jsstring;
  status_line : jsstring;
  message_line : option jsstring
}.

(** [a || b] for [a] a string or [undefined]: [a] if it is a non-empty
    string, else [b]. *)
Definition or_else (a b : option jsstring) : option jsstring :=
  match a with
  | Some s => if falsy s then b else Some s
  | None => b
  end.

(** The card, rendered when [result] is not [null]: [result.action],
    [String(result.status)] and [result.message || result.error]. *)
Definition lastResponse (result : option Result.t) : option LastResponse :=
  match result with
  | None => None
  | Some result =>
      Some {| action_line := Result.action result;
              status_line := toString (Result.status result);
              message_line := or_else (Result.message result) (Result.error result) |}
  end.

(** The text of a response body, under whichever key it is. *)
Definition bodyText (b : Body) : jsstring :=
  match b with
  | ErrorBody error => error
  | MessageBody message => message
  end.

(** The case mapping restricted to ASCII, [A]-[Z] to [a]-[z]: on a string
    of ASCII code units this is [toLowerCase]. *)
Definition asciiLowerUnit (c : N) : N :=
  if (65 <=? c) && (c <=? 90) then c + 32 else c.

Definition asciiToLowerCase (s : jsstring) : jsstring := map asciiLowerUnit s.

Arguments lit : simpl never.
Arguments toString : simpl never.

Section Service.

Variable toLowerCase : jsstring → jsstring.

Definition normalizeUsername (username : jsstring) : jsstring :=
  toLowerCase (trim username).

(** The [typeof] guard is the pattern match: its last branch is taken
    exactly when one of the two arguments is not a string
    ([validateCredentials_rules] states it with [typeof]). *)
Definition validateCredentials (username password : value) : ValidationResult :=
  match username, password with
  | VString username, VString password =>
      let strippedUsername := trim username in
      if falsy strippedUsername then
        {| valid := false; error := lit "Username cannot be empty." |}
      else if strlen strippedUsername <? MIN_USERNAME_LENGTH then
        {| valid := false;
           error := lit "Username must be at least "
                      ++ toString MIN_USERNAME_LENGTH ++ lit " characters." |}
      else if strlen password <? MIN_PASSWORD_LENGTH then
        {| valid := false;
           error := lit "Password must be at least "
                      ++ toString MIN_PASSWORD_LENGTH ++ lit " characters." |}
      else {| valid := true; error := lit "" |}
  | _, _ =>
      {| valid := false; error := lit "Username and password must be strings." |}
  end.

(** After the validation guard both arguments are strings; [.trim()] on
    anything else would throw, and [register_returns] and [login_returns]
    below show that this never happens. *)
Definition register (username password : value) : M Response :=
  let '{| valid := valid; error := error |} :=
    validateCredentials username password in
  if negb valid then ret {| status := 400; body := ErrorBody error |}
  else
    match username, password with
    | VString username, VString password =>
        let normalizedUsername := normalizeUsername username in
        let* taken := users_has normalizedUsername in
        if taken then
          ret {| status := 409; body := ErrorBody (lit "Username already exists.") |}
        else
          users_set normalizedUsername
            {| User.username := normalizedUsername; User.password := password |} ;;;
          ret {| status := 201; body := MessageBody (lit "Registration successful.") |}
    | _, _ => throw
    end.

Definition login (username password : value) : M Response :=
  let '{| valid := valid; error := error |} :=
    validateCredentials username password in
  if negb valid then ret {| status := 400; body := ErrorBody error |}
  else
    match username, password with
    | VString username, VString password =>
        let normalizedUsername := normalizeUsername username in
        let* user := users_get normalizedUsername in
        match user with
        | Some user =>
            if bool_decide (User.password user ≠ password) then
              ret {| status := 401;
                     body := ErrorBody (lit "Invalid username or password.") |}
            else
              ret {| status := 200; body := MessageBody (lit "Login successful.") |}
        | None =>
            ret {| status := 401;
                   body := ErrorBody (lit "Invalid username or password.") |}
        end
    | _, _ => throw
    end.

(** One method call on the service, whatever its arguments and outcome. *)
Inductive call (this : AuthService) : AuthService → Prop :=
  | call_register username password :
      call this (snd (register username password this))
  | call_login username password :
      call this (snd (login username password this)).

(** The states a service can be in: [new AuthService()] followed by any
    number of calls. *)
Definition reachable (this : AuthService) : Prop := rtc call constructor this.

(** Every key is a normalized username, and the account under a key carries
    that key as its [username]. *)
Definition keyed_by_normalized (this : AuthService) : Prop :=
  ∀ key user, users this !! key = Some user →
    normalizeUsername key = key ∧ User.username user = key.

(** The submit handlers of the two forms. The fields are component state
    set from [event.target.value], so they hold strings; the computation's
    value is the new [result] state. *)
Definition handleRegister (registerUsername registerPassword : jsstring)
  : M Result.t :=
  let* response := register (VString registerUsername) (VString registerPassword) in
  ret {| Result.action := lit "Register";
         Result.status := status response;
         Result.message :=
           match body response with MessageBody m => Some m | ErrorBody _ => None end;
         Result.error :=
           match body response with ErrorBody e => Some e | MessageBody _ => None end |}.

Definition handleLogin (loginUsername loginPassword : jsstring) : M Result.t :=
  let* response := login (VString loginUsername) (VString loginPassword) in
  ret {| Result.action := lit "Login";
         Result.status := status response;
         Result.message :=
           match body response with MessageBody m => Some m | ErrorBody _ => None end;
         Result.error :=
           match body response with ErrorBody e => Some e | MessageBody _ => None end |}.

(** A request to the service: which method, with which arguments. *)
Inductive request :=
  | Register (username password : value)
  | Login (username password : value).

Definition serve (q : request) : M Response :=
  match q with
  | Register username password => register username password
  | Login username password => login username password
  end.

(** A list of requests served one after the other: how each completed, in
    order, and the service object after the last. *)
Fixpoint serve_all (qs : list request) (this : AuthService)
  : list (completion Response) * AuthService :=
  match qs with
  | [] => ([], this)
  | q :: qs =>
      let '(c, this') := serve q this in
      let '(cs, this'') := serve_all qs this' in
      (c :: cs, this'')
  end.

(** * Properties *)

(** ** [trim] *)

Lemma trimStart_idem s : trimStart (trimStart s) = trimStart s.
Proof.
  induction s as [|c t IH]; simpl; [done|].
  destruct (isWhiteSpace c) eqn:E; [done|]. simpl. by rewrite E.
Qed.

Lemma trimStart_length s : (length (trimStart s) ≤ length s)%nat.
Proof.
  induction s as [|c t IH]; simpl; [done|].
  destruct (isWhiteSpace c); simpl; lia.
Qed.

Lemma trimStart_snoc s c :
  isWhiteSpace c = false → ∃ s', trimStart (s ++ [c]) = s' ++ [c].
Proof.
  intros Hc. induction s as [|d t IH]; simpl.
  - rewrite Hc. by exists [].
  - destruct (isWhiteSpace d); [done|]. by exists (d :: t).
Qed.

(** Removing trailing white space leaves a string without leading white
    space that way. *)
Lemma trimStart_trimEnd s :
  trimStart s = s → trimStart (trimEnd s) = trimEnd s.
Proof.
  destruct s as [|c t]; [done|]. simpl.
  destruct (isWhiteSpace c) eqn:Hc.
  - intros Hbad. exfalso.
    pose proof (trimStart_length t) as Hlen.
    rewrite Hbad in Hlen. simpl in Hlen. lia.
  - intros _. unfold trimEnd. simpl.
    destruct (trimStart_snoc (rev t) c Hc) as [s' ->].
    rewrite rev_app_distr. simpl. by rewrite Hc.
Qed.

Lemma trimEnd_idem s : trimEnd (trimEnd s) = trimEnd s.
Proof. unfold trimEnd. by rewrite rev_involutive, trimStart_idem. Qed.

Lemma trim_idem s : trim (trim s) = trim s.
Proof.
  unfold trim.
  rewrite (trimStart_trimEnd (trimStart s)) by apply trimStart_idem.
  apply trimEnd_idem.
Qed.

(** ** [validateCredentials] *)

Lemma falsy_nil s : falsy s = true ↔ s = [].
Proof. destruct s; simpl; split; congruence. Qed.

(** Validation succeeds exactly on two strings that are long enough. *)
Lemma validate_valid username password :
  valid (validateCredentials username password) = true ↔
  ∃ u p, username = VString u ∧ password = VString p
         ∧ MIN_USERNAME_LENGTH ≤ strlen (trim u)
         ∧ MIN_PASSWORD_LENGTH ≤ strlen p.
Proof.
  unfold validateCredentials. split.
  - destruct username as [u|], password as [p|]; try discriminate.
    destruct (falsy (trim u)); [discriminate|].
    destruct (N.ltb_spec (strlen (trim u)) MIN_USERNAME_LENGTH); [discriminate|].
    destruct (N.ltb_spec (strlen p) MIN_PASSWORD_LENGTH); [discriminate|].
    intros _. by exists u, p.
  - intros (u & p & -> & -> & Hu & Hp).
    destruct (falsy (trim u)) eqn:Hf.
    { apply falsy_nil in Hf. rewrite Hf in Hu.
      unfold strlen, MIN_USERNAME_LENGTH in Hu. simpl in Hu. lia. }
    destruct (N.ltb_spec (strlen (trim u)) MIN_USERNAME_LENGTH); [lia|].
    destruct (N.ltb_spec (strlen p) MIN_PASSWORD_LENGTH); [lia|done].
Qed.

(** ** What a call does, case by case *)

Lemma register_invalid username password this :
  valid (validateCredentials username password) = false →
  register username password this =
    (Return {| status := 400;
               body := ErrorBody (error (validateCredentials username password)) |},
     this).
Proof.
  unfold register. destruct (validateCredentials _ _) as [v e]. simpl.
  by intros ->.
Qed.

Lemma register_taken u p this :
  valid (validateCredentials (VString u) (VString p)) = true →
  is_Some (users this !! normalizeUsername u) →
  register (VString u) (VString p) this =
    (Return {| status := 409; body := ErrorBody (lit "Username already exists.") |},
     this).
Proof.
  unfold register. destruct (validateCredentials _ _) as [v e]. simpl.
  intros -> Hin. simpl. unfold bind, users_has.
  by rewrite bool_decide_eq_true_2.
Qed.

Lemma register_fresh u p this :
  valid (validateCredentials (VString u) (VString p)) = true →
  users this !! normalizeUsername u = None →
  register (VString u) (VString p) this =
    (Return {| status := 201; body := MessageBody (lit "Registration successful.") |},
     {| users := <[normalizeUsername u :=
                     {| User.username := normalizeUsername u; User.password := p |}]>
                   (users this) |}).
Proof.
  unfold register. destruct (validateCredentials _ _) as [v e]. simpl.
  intros -> Hout. simpl. unfold bind, users_has.
  rewrite bool_decide_eq_false_2; [done|].
  rewrite Hout. by intros [? ?].
Qed.

Lemma login_invalid username password this :
  valid (validateCredentials username password) = false →
  login username password this =
    (Return {| status := 400;
               body := ErrorBody (error (validateCredentials username password)) |},
     this).
Proof.
  unfold login. destruct (validateCredentials _ _) as [v e]. simpl.
  by intros ->.
Qed.

Lemma login_unknown u p this :
  valid (validateCredentials (VString u) (VString p)) = true →
  users this !! normalizeUsername u = None →
  login (VString u) (VString p) this =
    (Return {| status := 401; body := ErrorBody (lit "Invalid username or password.") |},
     this).
Proof.
  unfold login. destruct (validateCredentials _ _) as [v e]. simpl.
  intros -> Hout. simpl. unfold bind, users_get. by rewrite Hout.
Qed.

Lemma login_known u p user this :
  valid (validateCredentials (VString u) (VString p)) = true →
  users this !! normalizeUsername u = Some user →
  login (VString u) (VString p) this =
    (Return (if bool_decide (User.password user ≠ p)
             then {| status := 401;
                     body := ErrorBody (lit "Invalid username or password.") |}
             else {| status := 200; body := MessageBody (lit "Login successful.") |}),
     this).
Proof.
  unfold login. destruct (validateCredentials _ _) as [v e]. simpl.
  intros -> Hin. simpl. unfold bind, users_get. rewrite Hin.
  by destruct (bool_decide _).
Qed.

(** Neither method throws: the [TypeError] branch lies behind the
    validation guard. *)
Lemma register_returns username password this :
  ∃ r, fst (register username password this) = Return r.
Proof.
  destruct (valid (validateCredentials username password)) eqn:Hv.
  - pose proof Hv as Hv'.
    apply validate_valid in Hv' as (u & p & -> & -> & _).
    destruct (users this !! normalizeUsername u) eqn:Hk.
    + rewrite register_taken by eauto. eauto.
    + rewrite register_fresh by done. eauto.
  - rewrite register_invalid by done. eauto.
Qed.

Lemma login_returns username password this :
  ∃ r, fst (login username password this) = Return r.
Proof.
  destruct (valid (validateCredentials username password)) eqn:Hv.
  - pose proof Hv as Hv'.
    apply validate_valid in Hv' as (u & p & -> & -> & _).
    destruct (users this !! normalizeUsername u) eqn:Hk.
    + rewrite (login_known _ _ _ _ Hv Hk). eauto.
    + rewrite login_unknown by done. eauto.
  - rewrite login_invalid by done. eauto.
Qed.

(** A call that answers 201 was made on two valid strings, the key was
    free, and the new store is the old one with the account inserted. *)
Lemma register_created_inv username password this r this' :
  register username password this = (Return r, this') →
  status r = 201 →
  ∃ u p, username = VString u ∧ password = VString p
    ∧ valid (validateCredentials (VString u) (VString p)) = true
    ∧ users this !! normalizeUsername u = None
    ∧ this' = {| users := <[normalizeUsername u :=
                   {| User.username := normalizeUsername u; User.password := p |}]>
                 (users this) |}.
Proof.
  intros Hreg Hst.
  destruct (valid (validateCredentials username password)) eqn:Hv.
  - pose proof Hv as Hv'.
    apply validate_valid in Hv' as (u & p & -> & -> & _).
    destruct (users this !! normalizeUsername u) eqn:Hk.
    + rewrite register_taken in Hreg by eauto.
      injection Hreg as <- <-. discriminate Hst.
    + rewrite register_fresh in Hreg by done.
      injection Hreg as <- <-. by exists u, p.
  - rewrite register_invalid in Hreg by done.
    injection Hreg as <- <-. discriminate Hst.
Qed.

(** ** The claims *)

(** C1. After [register(u, p)] answers 201, [login(v, p)] on the resulting
    store answers 200 for every username [v] that passes validation and
    normalizes to the same key as [u]: both methods compute the key with
    [normalizeUsername]. *)
Theorem login_accepts_every_variant u p v this r this' :
  register (VString u) (VString p) this = (Return r, this') →
  status r = 201 →
  normalizeUsername v = normalizeUsername u →
  valid (validateCredentials (VString v) (VString p)) = true →
  login (VString v) (VString p) this' =
    (Return {| status := 200; body := MessageBody (lit "Login successful.") |},
     this').
Proof.
  intros Hreg Hst Hnorm Hv.
  apply register_created_inv in Hreg as (u' & p' & [= <-] & [= <-] & _ & _ & ->);
    [|done].
  rewrite (login_known v p
             {| User.username := normalizeUsername u; User.password := p |}).
  - simpl. by rewrite bool_decide_eq_false_2 by (intros H; by apply H).
  - done.
  - simpl. rewrite Hnorm. apply lookup_insert_eq.
Qed.

(** C3. For a valid pair [(u, p)] whose normalized username is not a key
    of the store, [register(u, p)] answers 201 with
    [{message: "Registration successful."}], and [login(u, p)] on the
    resulting store answers 200 with [{message: "Login successful."}]. *)
Theorem register_then_login u p this :
  valid (validateCredentials (VString u) (VString p)) = true →
  users this !! normalizeUsername u = None →
  ∃ this',
    register (VString u) (VString p) this =
      (Return {| status := 201;
                 body := MessageBody (lit "Registration successful.") |},
       this')
    ∧ login (VString u) (VString p) this' =
      (Return {| status := 200; body := MessageBody (lit "Login successful.") |},
       this').
Proof.
  intros Hv Hk. eexists. split; [by apply register_fresh|].
  rewrite (login_known u p
             {| User.username := normalizeUsername u; User.password := p |}).
  - simpl. by rewrite bool_decide_eq_false_2 by (intros H; by apply H).
  - done.
  - simpl. apply lookup_insert_eq.
Qed.

(** C4. For valid inputs [(u2, p2)] whose normalized username is already a
    key of the store, [register(u2, p2)] answers 409 with
    [{error: "Username already exists."}] and the store after the call is
    the store before it: the account under that key is the one that was
    there, with the fields it had. *)
Theorem register_duplicate_rejected u2 p2 user this :
  valid (validateCredentials (VString u2) (VString p2)) = true →
  users this !! normalizeUsername u2 = Some user →
  register (VString u2) (VString p2) this =
    (Return {| status := 409; body := ErrorBody (lit "Username already exists.") |},
     this)
  ∧ users (snd (register (VString u2) (VString p2) this)) !! normalizeUsername u2
    = Some user
  ∧ size (users (snd (register (VString u2) (VString p2) this)))
    = size (users this).
Proof.
  intros Hv Hk. rewrite register_taken by eauto. by simpl.
Qed.

(** C5. [validateCredentials] applies its rules in order, the first
    failure winning: a non-string argument, then an empty trimmed username,
    then a trimmed username shorter than 3, then a password shorter than 6
    (untrimmed), each with its own message, and otherwise
    [{valid: true, error: ""}]. Trimmed length 3 with password length 6
    passes, lengths 2 and 5 fail, and [register] and [login] both answer 400
    with the validation error whenever validation fails. *)
Theorem validateCredentials_rules :
  (∀ username password,
     typeof username ≠ lit "string" ∨ typeof password ≠ lit "string" →
     validateCredentials username password =
       {| valid := false; error := lit "Username and password must be strings." |})
  ∧ (∀ u p,
       trim u = [] →
       validateCredentials (VString u) (VString p) =
         {| valid := false; error := lit "Username cannot be empty." |})
  ∧ (∀ u p,
       trim u ≠ [] → strlen (trim u) < 3 →
       validateCredentials (VString u) (VString p) =
         {| valid := false; error := lit "Username must be at least 3 characters." |})
  ∧ (∀ u p,
       3 ≤ strlen (trim u) → strlen p < 6 →
       validateCredentials (VString u) (VString p) =
         {| valid := false; error := lit "Password must be at least 6 characters." |})
  ∧ (∀ u p,
       3 ≤ strlen (trim u) → 6 ≤ strlen p →
       validateCredentials (VString u) (VString p) =
         {| valid := true; error := lit "" |})
  ∧ (∀ u p,
       strlen (trim u) = 3 → strlen p = 6 →
       valid (validateCredentials (VString u) (VString p)) = true)
  ∧ (∀ u password,
       strlen (trim u) = 2 →
       valid (validateCredentials (VString u) password) = false)
  ∧ (∀ username p,
       strlen p = 5 →
       valid (validateCredentials username (VString p)) = false)
  ∧ (∀ username password this,
       valid (validateCredentials username password) = false →
       register username password this =
         (Return {| status := 400;
                    body := ErrorBody (error (validateCredentials username password)) |},
          this)
       ∧ login username password this =
         (Return {| status := 400;
                    body := ErrorBody (error (validateCredentials username password)) |},
          this)).
Proof.
  assert (Hrules : ∀ u p,
    validateCredentials (VString u) (VString p) =
      if falsy (trim u) then
        {| valid := false; error := lit "Username cannot be empty." |}
      else if strlen (trim u) <? 3 then
        {| valid := false; error := lit "Username must be at least 3 characters." |}
      else if strlen p <? 6 then
        {| valid := false; error := lit "Password must be at least 6 characters." |}
      else {| valid := true; error := lit "" |}) by done.
  assert (Hempty : ∀ u, 3 ≤ strlen (trim u) → falsy (trim u) = false).
  { intros u. destruct (trim u); [|done]. unfold strlen. simpl. lia. }
  repeat split.
  - intros [u|t] [p|t']; try done. intros [H|H]; by destruct H.
  - intros u p Hu. rewrite Hrules, Hu. done.
  - intros u p Hne Hlt. rewrite Hrules.
    destruct (trim u) eqn:Hu; [done|]. simpl.
    by rewrite (proj2 (N.ltb_lt _ _) Hlt).
  - intros u p Hu Hp. rewrite Hrules, Hempty by done.
    rewrite (proj2 (N.ltb_ge _ _) Hu). by rewrite (proj2 (N.ltb_lt _ _) Hp).
  - intros u p Hu Hp. rewrite Hrules, Hempty by done.
    rewrite (proj2 (N.ltb_ge _ _) Hu). by rewrite (proj2 (N.ltb_ge _ _) Hp).
  - intros u p Hu Hp. rewrite Hrules, Hempty by lia.
    rewrite (proj2 (N.ltb_ge _ _)) by lia. by rewrite (proj2 (N.ltb_ge _ _)) by lia.
  - intros u password Hu.
    destruct (valid (validateCredentials (VString u) password)) eqn:Hv; [|done].
    apply validate_valid in Hv as (u' & p' & [= <-] & _ & Hlen & _).
    unfold MIN_USERNAME_LENGTH in Hlen. lia.
  - intros username p Hp.
    destruct (valid (validateCredentials username (VString p))) eqn:Hv; [|done].
    apply validate_valid in Hv as (u' & p' & _ & [= <-] & _ & Hlen).
    unfold MIN_PASSWORD_LENGTH in Hlen. lia.
  - by apply register_invalid.
  - by apply login_invalid.
Qed.

(** [login] hands back the service object it was given. *)
Lemma login_store username password this :
  snd (login username password this) = this.
Proof.
  destruct (valid (validateCredentials username password)) eqn:Hv.
  - pose proof Hv as Hv'.
    apply validate_valid in Hv' as (u & p & -> & -> & _).
    destruct (users this !! normalizeUsername u) eqn:Hk.
    + by rewrite (login_known _ _ _ _ Hv Hk).
    + by rewrite login_unknown.
  - by rewrite login_invalid.
Qed.

(** C7. A login for a username that is absent from the store and a login
    for an existing account with a password that does not match get the same
    answer: status 401 with [{error: "Invalid username or password."}]. *)
Theorem login_failures_indistinguishable u1 p1 this1 u2 p2 user this2 :
  valid (validateCredentials (VString u1) (VString p1)) = true →
  valid (validateCredentials (VString u2) (VString p2)) = true →
  users this1 !! normalizeUsername u1 = None →
  users this2 !! normalizeUsername u2 = Some user →
  User.password user ≠ p2 →
  fst (login (VString u1) (VString p1) this1) =
    Return {| status := 401; body := ErrorBody (lit "Invalid username or password.") |}
  ∧ fst (login (VString u2) (VString p2) this2) =
    Return {| status := 401; body := ErrorBody (lit "Invalid username or password.") |}
  ∧ fst (login (VString u1) (VString p1) this1)
    = fst (login (VString u2) (VString p2) this2).
Proof.
  intros Hv1 Hv2 Hk1 Hk2 Hpw.
  rewrite login_unknown by done.
  rewrite (login_known _ _ _ _ Hv2 Hk2).
  by rewrite bool_decide_eq_true_2.
Qed.

(** C8. [login] leaves the account collection as it found it, for every
    store and all arguments, and its answer is one of 200, 400 and 401. *)
Theorem login_read_only username password this :
  snd (login username password this) = this
  ∧ ∃ r, fst (login username password this) = Return r
         ∧ (status r = 200 ∨ status r = 400 ∨ status r = 401).
Proof.
  split; [apply login_store|].
  destruct (valid (validateCredentials username password)) eqn:Hv.
  - pose proof Hv as Hv'.
    apply validate_valid in Hv' as (u & p & -> & -> & _).
    destruct (users this !! normalizeUsername u) eqn:Hk.
    + rewrite (login_known _ _ _ _ Hv Hk). eexists. split; [done|].
      destruct (bool_decide _); simpl; auto.
    + rewrite login_unknown by done. eexists. split; [done|]. simpl. auto.
  - rewrite login_invalid by done. eexists. split; [done|]. simpl. auto.
Qed.

(** ** Accounts over time *)

(** What [register] can do to the store: nothing, or insert one account
    under a key that was free. *)
Lemma register_store username password this :
  snd (register username password this) = this
  ∨ ∃ u p, username = VString u ∧ password = VString p
      ∧ users this !! normalizeUsername u = None
      ∧ snd (register username password this) =
          {| users := <[normalizeUsername u :=
                {| User.username := normalizeUsername u; User.password := p |}]>
              (users this) |}.
Proof.
  destruct (valid (validateCredentials username password)) eqn:Hv.
  - pose proof Hv as Hv'.
    apply validate_valid in Hv' as (u & p & -> & -> & _).
    destruct (users this !! normalizeUsername u) eqn:Hk.
    + left. by rewrite register_taken by eauto.
    + right. exists u, p. by rewrite register_fresh.
  - left. by rewrite register_invalid.
Qed.

(** An account, once stored, stays as it is: no call overwrites or removes
    it. *)
Lemma call_keeps_account this this' key user :
  call this this' →
  users this !! key = Some user → users this' !! key = Some user.
Proof.
  intros [username password|username password] Hk.
  - destruct (register_store username password this)
      as [->|(u & p & _ & _ & Hfree & ->)]; [done|].
    simpl. rewrite lookup_insert_ne; [done|]. congruence.
  - by rewrite login_store.
Qed.

Lemma calls_keep_account this this' key user :
  rtc call this this' →
  users this !! key = Some user → users this' !! key = Some user.
Proof.
  induction 1 as [|this mid this' Hcall _ IH]; [done|].
  intros Hk. apply IH. by apply (call_keeps_account this).
Qed.

(** C9 (as the code has it). The account created by a successful
    [register(u, p)] is stored under the normalized username and its
    [username] field is that same normalized username. *)
Theorem register_stores_normalized_username u p this r this' :
  register (VString u) (VString p) this = (Return r, this') →
  status r = 201 →
  ∃ user, users this' !! normalizeUsername u = Some user
          ∧ User.username user = normalizeUsername u.
Proof.
  intros Hreg Hst.
  apply register_created_inv in Hreg as (u' & p' & [= <-] & [= <-] & _ & _ & ->);
    [|done].
  eexists. split; [apply lookup_insert_eq|done].
Qed.

(** C10. Passwords are compared as given. For an account created by
    [register(u, p)], at any later time, a valid [login(v, p')] with [v]
    normalizing to the account's key answers 200 exactly when [p'] is [p],
    code unit for code unit, and 401 for every other [p']. *)
Theorem login_password_exact u p v p' this r this1 this2 :
  register (VString u) (VString p) this = (Return r, this1) →
  status r = 201 →
  rtc call this1 this2 →
  normalizeUsername v = normalizeUsername u →
  valid (validateCredentials (VString v) (VString p')) = true →
  (fst (login (VString v) (VString p') this2) =
     Return {| status := 200; body := MessageBody (lit "Login successful.") |}
   ↔ p' = p)
  ∧ (p' ≠ p →
     fst (login (VString v) (VString p') this2) =
       Return {| status := 401;
                 body := ErrorBody (lit "Invalid username or password.") |}).
Proof.
  intros Hreg Hst Hlater Hnorm Hv.
  apply register_created_inv in Hreg as (u' & p0 & [= <-] & [= <-] & _ & _ & ->);
    [|done].
  assert (Hk : users this2 !! normalizeUsername v =
               Some {| User.username := normalizeUsername u; User.password := p |}).
  { apply (calls_keep_account _ _ _ _ Hlater). simpl.
    rewrite Hnorm. apply lookup_insert_eq. }
  rewrite (login_known _ _ _ _ Hv Hk). simpl.
  destruct (decide (p = p')) as [->|Hne].
  - rewrite bool_decide_eq_false_2 by (intros H; by apply H).
    split; [done|]. intros H; by destruct H.
  - rewrite bool_decide_eq_true_2 by done.
    split; [|done]. split; [discriminate|congruence].
Qed.

(** ** The uniqueness invariant *)

Section Invariant.

(** Two facts about [String.prototype.toLowerCase]: lowering a lowered
    string changes nothing, and lowering does not put white space at either
    end of a string that has none there. *)
Hypothesis toLowerCase_idem :
  ∀ s, toLowerCase (toLowerCase s) = toLowerCase s.
Hypothesis toLowerCase_trimmed :
  ∀ s, trim s = s → trim (toLowerCase s) = toLowerCase s.

Lemma normalizeUsername_idem u :
  normalizeUsername (normalizeUsername u) = normalizeUsername u.
Proof.
  unfold normalizeUsername.
  rewrite (toLowerCase_trimmed (trim u)) by apply trim_idem.
  apply toLowerCase_idem.
Qed.

Lemma call_keyed this this' :
  call this this' → keyed_by_normalized this → keyed_by_normalized this'.
Proof.
  intros [username password|username password] Hinv.
  - destruct (register_store username password this)
      as [->|(u & p & _ & _ & Hfree & ->)]; [done|].
    intros key user. simpl. rewrite lookup_insert. case_decide as Hkey.
    + intros [= <-]. subst key. split; [apply normalizeUsername_idem|done].
    + apply Hinv.
  - by rewrite login_store.
Qed.

Lemma reachable_keyed this : reachable this → keyed_by_normalized this.
Proof.
  unfold reachable. revert this. apply rtc_ind_r.
  - intros key user. simpl. by rewrite lookup_empty.
  - intros mid this' _ Hcall IH. by apply (call_keyed mid).
Qed.

(** C6. In every state reachable from the empty store by [register] and
    [login] calls, every key is a fixed point of [normalizeUsername], and
    two stored accounts whose usernames normalize to the same string are
    one account under one key. *)
Theorem reachable_unique_accounts this :
  reachable this →
  (∀ key user, users this !! key = Some user → normalizeUsername key = key)
  ∧ (∀ key1 key2 user1 user2,
       users this !! key1 = Some user1 →
       users this !! key2 = Some user2 →
       normalizeUsername (User.username user1)
         = normalizeUsername (User.username user2) →
       key1 = key2 ∧ user1 = user2).
Proof.
  intros Hinv%reachable_keyed. split.
  - intros key user Hk. by destruct (Hinv key user Hk).
  - intros key1 key2 user1 user2 Hk1 Hk2 Hsame.
    destruct (Hinv key1 user1 Hk1) as [Hfix1 Hname1].
    destruct (Hinv key2 user2 Hk2) as [Hfix2 Hname2].
    rewrite Hname1, Hname2, Hfix1, Hfix2 in Hsame. subst key2.
    split; [done|]. congruence.
Qed.

End Invariant.

(** * Further properties of the service *)

(** ** What [trim] removes *)

Lemma trimStart_split s :
  ∃ ws, s = ws ++ trimStart s ∧ Forall (λ c, isWhiteSpace c = true) ws.
Proof.
  induction s as [|c t (ws & Ht & Hws)]; simpl.
  - by exists [].
  - destruct (isWhiteSpace c) eqn:Hc.
    + exists (c :: ws). split; [simpl; by rewrite <- Ht|by constructor].
    + by exists [].
Qed.

Lemma trimStart_head s c : head (trimStart s) = Some c → isWhiteSpace c = false.
Proof.
  induction s as [|d t IH]; simpl; [done|].
  destruct (isWhiteSpace d) eqn:Hd; [done|]. simpl. by intros [= <-].
Qed.

Lemma trimStart_white ws s :
  Forall (λ c, isWhiteSpace c = true) ws → trimStart (ws ++ s) = trimStart s.
Proof. induction 1 as [|c ws Hc _ IH]; simpl; [done|]. by rewrite Hc. Qed.

Lemma trimStart_app s t :
  trimStart (s ++ t) = if falsy (trimStart s) then trimStart t else trimStart s ++ t.
Proof.
  induction s as [|c s IH]; simpl; [done|].
  by destruct (isWhiteSpace c).
Qed.

Lemma trimEnd_white s ws :
  Forall (λ c, isWhiteSpace c = true) ws → trimEnd (s ++ ws) = trimEnd s.
Proof.
  intros Hws. unfold trimEnd. rewrite rev_app_distr.
  rewrite trimStart_white; [done|].
  apply Forall_forall. intros c Hc. rewrite Forall_forall in Hws.
  apply Hws. apply list_elem_of_In. apply in_rev. by apply list_elem_of_In.
Qed.

(** White space around a string does not change what [trim] returns. *)
Lemma trim_padding ws s ws' :
  Forall (λ c, isWhiteSpace c = true) ws →
  Forall (λ c, isWhiteSpace c = true) ws' →
  trim (ws ++ s ++ ws') = trim s.
Proof.
  intros Hws Hws'. unfold trim. rewrite trimStart_white by done.
  rewrite trimStart_app. destruct (trimStart s) as [|c t] eqn:Hs; simpl.
  - rewrite <- (app_nil_r ws'). rewrite trimStart_white by done. done.
  - rewrite app_comm_cons. by apply trimEnd_white.
Qed.

(** X1. The trimmed username (the argument of [toLowerCase] in
    [normalizeUsername], [strippedUsername] in [validateCredentials]) is the
    username with white space removed from its two ends and nothing else: the
    username is white space, then the trimmed username, then white space, and
    the trimmed username neither starts nor ends with white space. *)
Theorem trim_removes_surrounding_white_space s :
  (∃ ws ws', s = ws ++ trim s ++ ws'
     ∧ Forall (λ c, isWhiteSpace c = true) ws
     ∧ Forall (λ c, isWhiteSpace c = true) ws')
  ∧ (∀ c, head (trim s) = Some c → isWhiteSpace c = false)
  ∧ (∀ c, last (trim s) = Some c → isWhiteSpace c = false).
Proof.
  assert (Hlast : ∀ t c, last (trimEnd t) = Some c → isWhiteSpace c = false).
  { intros t c (l' & Hl')%last_Some. unfold trimEnd in Hl'.
    apply (f_equal (@rev N)) in Hl'.
    rewrite rev_involutive, rev_app_distr in Hl'. simpl in Hl'.
    apply (trimStart_head (rev t)). by rewrite Hl'. }
  split; [|split].
  - destruct (trimStart_split s) as (ws & Hs & Hws).
    destruct (trimStart_split (rev (trimStart s))) as (ws' & Hs' & Hws').
    exists ws, (rev ws'). split; [|split; [done|]].
    + unfold trim, trimEnd. rewrite <- rev_app_distr, <- Hs'.
      by rewrite rev_involutive.
    + apply Forall_forall. intros c Hc. rewrite Forall_forall in Hws'.
      apply Hws'. apply list_elem_of_In. apply in_rev. by apply list_elem_of_In.
  - intros c Hc. apply (trimStart_head (trim s)).
    unfold trim. by rewrite trimStart_trimEnd by apply trimStart_idem.
  - intros c. apply Hlast.
Qed.

(** X2. White space before and after the username never matters: both
    methods do to the service, and answer, exactly what they do for the
    username without it, whatever the password argument and the store. *)
Theorem username_padding_ignored ws ws' u password this :
  Forall (λ c, isWhiteSpace c = true) ws →
  Forall (λ c, isWhiteSpace c = true) ws' →
  register (VString (ws ++ u ++ ws')) password this
    = register (VString u) password this
  ∧ login (VString (ws ++ u ++ ws')) password this
    = login (VString u) password this.
Proof.
  intros Hws Hws'.
  unfold register, login, validateCredentials, normalizeUsername.
  destruct password as [p|]; [|done].
  by rewrite (trim_padding ws u ws' Hws Hws').
Qed.

(** X3. [register] never throws, whatever the types of its arguments; it
    answers 201, 400 or 409, and unless it answers 201 the service is left
    as it was. *)
Theorem register_outcomes username password this :
  ∃ r, fst (register username password this) = Return r
       ∧ (status r = 201 ∨ status r = 400 ∨ status r = 409)
       ∧ (status r ≠ 201 → snd (register username password this) = this).
Proof.
  destruct (valid (validateCredentials username password)) eqn:Hv.
  - pose proof Hv as Hv'.
    apply validate_valid in Hv' as (u & p & -> & -> & _).
    destruct (users this !! normalizeUsername u) eqn:Hk.
    + rewrite register_taken by eauto. eexists. simpl. by auto.
    + rewrite register_fresh by done. eexists. simpl.
      split; [done|]. split; [by auto|]. by intros [].
  - rewrite register_invalid by done. eexists. simpl. by auto.
Qed.

(** X4. A registration answered with 201 adds exactly one account: its key
    was absent and is now present, the account carries the key as its
    [username], the number of accounts grows by one and every other key is
    as it was. *)
Theorem register_adds_one_account username password this r this' :
  register username password this = (Return r, this') →
  status r = 201 →
  ∃ u user,
    username = VString u
    ∧ users this !! normalizeUsername u = None
    ∧ users this' !! normalizeUsername u = Some user
    ∧ User.username user = normalizeUsername u
    ∧ size (users this') = S (size (users this))
    ∧ ∀ key, key ≠ normalizeUsername u → users this' !! key = users this !! key.
Proof.
  intros Hreg Hst.
  apply register_created_inv in Hreg as (u & p & -> & -> & _ & Hfree & ->);
    [|done].
  eexists u, _. simpl. split; [done|]. split; [done|].
  split; [apply lookup_insert_eq|]. split; [done|].
  split; [by apply map_size_insert_None|].
  intros key Hkey. by rewrite lookup_insert_ne.
Qed.

(** X5. The store only grows: after any number of calls every account that
    was stored is still stored, unchanged under its key, so the later
    collection contains the earlier one and has at least as many accounts. *)
Theorem store_only_grows this this' :
  rtc call this this' →
  users this ⊆ users this' ∧ (size (users this) ≤ size (users this'))%nat.
Proof.
  intros Hcalls.
  assert (Hsub : users this ⊆ users this').
  { apply map_subseteq_spec. intros key user.
    by apply calls_keep_account. }
  split; [done|]. by apply map_subseteq_size.
Qed.

(** X6. [login] answers 200 in exactly one situation: both arguments are
    strings that pass validation, the store has an account under the
    normalized username, and that account's [password] is the password
    argument. *)
Theorem login_success_iff username password this :
  fst (login username password this) =
    Return {| status := 200; body := MessageBody (lit "Login successful.") |}
  ↔ ∃ u p user,
      username = VString u ∧ password = VString p
      ∧ valid (validateCredentials username password) = true
      ∧ users this !! normalizeUsername u = Some user
      ∧ User.password user = p.
Proof.
  split.
  - destruct (valid (validateCredentials username password)) eqn:Hv.
    + pose proof Hv as Hv'.
      apply validate_valid in Hv' as (u & p & -> & -> & _).
      destruct (users this !! normalizeUsername u) as [user|] eqn:Hk.
      * rewrite (login_known _ _ _ _ Hv Hk). simpl.
        case_bool_decide as Hpw; [discriminate|].
        intros _. exists u, p, user.
        repeat split; try done; by destruct (decide (User.password user = p)).
      * by rewrite login_unknown.
    + by rewrite login_invalid.
  - intros (u & p & user & -> & -> & Hv & Hk & Hpw).
    rewrite (login_known _ _ _ _ Hv Hk). simpl.
    by rewrite bool_decide_eq_false_2 by (intros H; by apply H).
Qed.

Lemma reachable_validated this :
  reachable this →
  ∀ key user, users this !! key = Some user →
    User.username user = key
    ∧ MIN_PASSWORD_LENGTH ≤ strlen (User.password user)
    ∧ ∃ u, key = normalizeUsername u ∧ MIN_USERNAME_LENGTH ≤ strlen (trim u).
Proof.
  unfold reachable. intros Hreach. pattern this. revert this Hreach.
  apply rtc_ind_r.
  - intros key user. simpl. by rewrite lookup_empty.
  - intros mid this' _ [username password|username password] IH.
    + destruct (valid (validateCredentials username password)) eqn:Hv.
      * pose proof Hv as Hv'.
        apply validate_valid in Hv' as (u & p & -> & -> & Hu & Hp).
        destruct (users mid !! normalizeUsername u) eqn:Hk;
          [by rewrite register_taken by eauto|].
        rewrite register_fresh by done. simpl.
        intros key user. rewrite lookup_insert. case_decide as Hkey;
          [|by apply IH].
        intros [= <-]. simpl. subst key. eauto.
      * by rewrite register_invalid.
    + by rewrite login_store.
Qed.

(** X7. Every account of a reachable store went through validation: its
    key is the normalized form of a username of at least 3 code units after
    trimming, its [username] is its key, and its [password] has at least 6
    code units. *)
Theorem reachable_accounts_validated this key user :
  reachable this →
  users this !! key = Some user →
  User.username user = key
  ∧ MIN_PASSWORD_LENGTH ≤ strlen (User.password user)
  ∧ ∃ u, key = normalizeUsername u ∧ MIN_USERNAME_LENGTH ≤ strlen (trim u).
Proof. intros Hreach. by apply reachable_validated. Qed.

(** X8. The first registration of a name wins. Once [register(u, p)] has
    answered 201, a later valid [register(u', p')] whose username normalizes
    to the same key answers 409, at any later time, and leaves the service
    as it was: the account cannot be replaced. *)
Theorem first_registration_wins u p u' p' this r this1 this2 :
  register (VString u) (VString p) this = (Return r, this1) →
  status r = 201 →
  rtc call this1 this2 →
  normalizeUsername u' = normalizeUsername u →
  valid (validateCredentials (VString u') (VString p')) = true →
  register (VString u') (VString p') this2 =
    (Return {| status := 409; body := ErrorBody (lit "Username already exists.") |},
     this2)
  ∧ users this2 !! normalizeUsername u = users this1 !! normalizeUsername u.
Proof.
  intros Hreg Hst Hlater Hnorm Hv.
  apply register_created_inv in Hreg as (u0 & p0 & [= <-] & [= <-] & _ & _ & ->);
    [|done].
  assert (Hk : users this2 !! normalizeUsername u =
               Some {| User.username := normalizeUsername u; User.password := p |}).
  { apply (calls_keep_account _ _ _ _ Hlater). simpl. apply lookup_insert_eq. }
  split.
  - apply register_taken; [done|]. rewrite Hnorm, Hk. eauto.
  - rewrite Hk. simpl. by rewrite lookup_insert_eq.
Qed.

(** ** Who can log in *)

(** Where the accounts of the store after a list of requests come from:
    each was there at the start or was created by one of the requests, a
    [register] with the account's password that was answered with 201. *)
Lemma serve_all_accounts qs :
  ∀ this0 cs this,
    serve_all qs this0 = (cs, this) →
    ∀ key user, users this !! key = Some user →
      users this0 !! key = Some user
      ∨ ∃ i u,
          qs !! i = Some (Register (VString u) (VString (User.password user)))
          ∧ normalizeUsername u = key
          ∧ cs !! i =
              Some (Return {| status := 201;
                              body := MessageBody (lit "Registration successful.") |}).
Proof.
  induction qs as [|q qs IH]; intros this0 cs this; simpl.
  - intros [= <- <-]. auto.
  - destruct (serve q this0) as [c this1] eqn:Hq.
    destruct (serve_all qs this1) as [cs' this2] eqn:Hqs.
    intros [= <- <-] key user Hk.
    destruct (IH _ _ _ Hqs key user Hk) as [Hk1|(i & u & Hi & Hu & Hc)];
      [|right; by exists (S i), u].
    destruct q as [username password|username password]; simpl in Hq.
    + destruct (valid (validateCredentials username password)) eqn:Hv.
      * pose proof Hv as Hv'.
        apply validate_valid in Hv' as (u & p & -> & -> & _).
        destruct (users this0 !! normalizeUsername u) eqn:Hfree.
        { rewrite register_taken in Hq by eauto.
          injection Hq as <- <-. by left. }
        rewrite register_fresh in Hq by done. injection Hq as <- <-.
        simpl in Hk1. rewrite lookup_insert in Hk1.
        case_decide as Hkey; [|by left].
        injection Hk1 as <-. right. by exists 0%nat, u.
      * rewrite register_invalid in Hq by done.
        injection Hq as <- <-. by left.
    + left. pose proof (login_store username password this0) as Hst.
      rewrite Hq in Hst. simpl in Hst. by subst this1.
Qed.

(** X9. Nobody logs in without having registered. If, after any list of
    requests served by a new service, a [login] is answered with 200, then
    its arguments are strings and one of the requests was a [register] with
    that very password and a username normalizing to the same key, and it
    was answered with 201. *)
Theorem login_needs_registration qs cs this username password r :
  serve_all qs constructor = (cs, this) →
  fst (login username password this) = Return r →
  status r = 200 →
  ∃ i u v,
    username = VString v
    ∧ qs !! i = Some (Register (VString u) password)
    ∧ normalizeUsername u = normalizeUsername v
    ∧ cs !! i =
        Some (Return {| status := 201;
                        body := MessageBody (lit "Registration successful.") |}).
Proof.
  intros Hqs Hlogin Hst.
  destruct (valid (validateCredentials username password)) eqn:Hv.
  - pose proof Hv as Hv'.
    apply validate_valid in Hv' as (v & p & -> & -> & _).
    destruct (users this !! normalizeUsername v) as [user|] eqn:Hk.
    + rewrite (login_known _ _ _ _ Hv Hk) in Hlogin. simpl in Hlogin.
      case_bool_decide as Hpw; injection Hlogin as <-; [discriminate Hst|].
      assert (User.password user = p) as <-
        by (by destruct (decide (User.password user = p))).
      destruct (serve_all_accounts _ _ _ _ Hqs _ _ Hk)
        as [Hempty|(i & u & Hi & Hu & Hc)].
      * simpl in Hempty. by rewrite lookup_empty in Hempty.
      * by exists i, u, v.
    + rewrite login_unknown in Hlogin by done.
      injection Hlogin as <-. discriminate Hst.
  - rewrite login_invalid in Hlogin by done.
    injection Hlogin as <-. discriminate Hst.
Qed.

Section NoLockout.

(** Three facts about [String.prototype.toLowerCase]: lowering a lowered
    string changes nothing, lowering does not put white space at either end
    of a string that has none there, and lowering does not make a string
    shorter. *)
Hypothesis toLowerCase_idem :
  ∀ s, toLowerCase (toLowerCase s) = toLowerCase s.
Hypothesis toLowerCase_trimmed :
  ∀ s, trim s = s → trim (toLowerCase s) = toLowerCase s.
Hypothesis toLowerCase_length :
  ∀ s, (length s ≤ length (toLowerCase s))%nat.

(** X10. No account is locked out: in every reachable state, [login] with
    an account's key as the username and its stored password is answered
    with 200. *)
Theorem every_account_can_log_in this key user :
  reachable this →
  users this !! key = Some user →
  login (VString key) (VString (User.password user)) this =
    (Return {| status := 200; body := MessageBody (lit "Login successful.") |},
     this).
Proof.
  intros Hreach Hk.
  destruct (reachable_validated this Hreach key user Hk)
    as (_ & Hp & u & -> & Hu).
  assert (Htrim : trim (normalizeUsername u) = normalizeUsername u).
  { unfold normalizeUsername. apply toLowerCase_trimmed, trim_idem. }
  assert (Hnorm : normalizeUsername (normalizeUsername u) = normalizeUsername u).
  { unfold normalizeUsername at 1. rewrite Htrim. apply toLowerCase_idem. }
  assert (Hv : valid (validateCredentials (VString (normalizeUsername u))
                        (VString (User.password user))) = true).
  { apply validate_valid. eexists _, _. split; [done|]. split; [done|].
    split; [|done]. rewrite Htrim.
    pose proof (toLowerCase_length (trim u)) as Hlen.
    unfold normalizeUsername, strlen in *. lia. }
  rewrite <- Hnorm in Hk.
  rewrite (login_known _ _ _ _ Hv Hk). simpl.
  by rewrite bool_decide_eq_false_2 by (intros H; by apply H).
Qed.

End NoLockout.

(** ** The form *)

(** The validation errors the form can get: its fields are strings, so the
    first rule never fires. *)
Lemma validate_strings_error u p :
  valid (validateCredentials (VString u) (VString p)) = false →
  error (validateCredentials (VString u) (VString p)) = lit "Username cannot be empty."
  ∨ error (validateCredentials (VString u) (VString p))
    = lit "Username must be at least 3 characters."
  ∨ error (validateCredentials (VString u) (VString p))
    = lit "Password must be at least 6 characters.".
Proof.
  unfold validateCredentials.
  destruct (falsy (trim u)); [by auto|].
  destruct (strlen (trim u) <? MIN_USERNAME_LENGTH); [by auto|].
  destruct (strlen p <? MIN_PASSWORD_LENGTH); [by auto|done].
Qed.

(** The card after a submit shows the response as it is. *)
Lemma lastResponse_of_response action response :
  bodyText (body response) ≠ [] →
  lastResponse
    (Some {| Result.action := action;
             Result.status := status response;
             Result.message :=
               match body response with MessageBody m => Some m | ErrorBody _ => None end;
             Result.error :=
               match body response with ErrorBody e => Some e | MessageBody _ => None end |})
  = Some {| action_line := action;
            status_line := toString (status response);
            message_line := Some (bodyText (body response)) |}.
Proof.
  destruct response as [st [e|m]]; simpl; [done|].
  by destruct m.
Qed.

(** X11. Submitting the registration form always produces a card, whatever
    the fields hold: it shows "Register", the status of the service's
    response in decimal and the text of its body, which is never empty and
    never the "must be strings" error; the service is left in the state
    [register] left it in. *)
Theorem handleRegister_shows_response registerUsername registerPassword this :
  ∃ response this' result,
    register (VString registerUsername) (VString registerPassword) this
      = (Return response, this')
    ∧ handleRegister registerUsername registerPassword this = (Return result, this')
    ∧ lastResponse (Some result) =
        Some {| action_line := lit "Register";
                status_line := toString (status response);
                message_line := Some (bodyText (body response)) |}
    ∧ bodyText (body response) ≠ []
    ∧ bodyText (body response) ≠ lit "Username and password must be strings.".
Proof.
  unfold handleRegister, bind.
  destruct (valid (validateCredentials (VString registerUsername)
                     (VString registerPassword))) eqn:Hv.
  - destruct (users this !! normalizeUsername registerUsername) eqn:Hk.
    + rewrite register_taken by eauto. eexists _, _, _.
      split; [done|]. split; [done|]. by split; [|split].
    + rewrite register_fresh by done. eexists _, _, _.
      split; [done|]. split; [done|]. by split; [|split].
  - rewrite register_invalid by done. eexists _, _, _.
    split; [done|]. split; [done|].
    assert (Htext : bodyText (ErrorBody (error (validateCredentials
              (VString registerUsername) (VString registerPassword)))) ≠ []
            ∧ bodyText (ErrorBody (error (validateCredentials
              (VString registerUsername) (VString registerPassword))))
              ≠ lit "Username and password must be strings.").
    { unfold bodyText.
      destruct (validate_strings_error _ _ Hv) as [-> | [-> | ->]];
        split; by vm_compute. }
    split; [|done].
    exact (lastResponse_of_response (lit "Register")
             {| status := 400;
                body := ErrorBody (error (validateCredentials
                          (VString registerUsername) (VString registerPassword))) |}
             (proj1 Htext)).
Qed.

(** X12. Submitting the login form always produces a card: it shows
    "Login", the status of the service's response in decimal and the text of
    its body, which is never empty and never the "must be strings" error;
    the service is left as it was. *)
Theorem handleLogin_shows_response loginUsername loginPassword this :
  ∃ response result,
    login (VString loginUsername) (VString loginPassword) this
      = (Return response, this)
    ∧ handleLogin loginUsername loginPassword this = (Return result, this)
    ∧ lastResponse (Some result) =
        Some {| action_line := lit "Login";
                status_line := toString (status response);
                message_line := Some (bodyText (body response)) |}
    ∧ bodyText (body response) ≠ []
    ∧ bodyText (body response) ≠ lit "Username and password must be strings.".
Proof.
  unfold handleLogin, bind.
  destruct (valid (validateCredentials (VString loginUsername)
                     (VString loginPassword))) eqn:Hv.
  - destruct (users this !! normalizeUsername loginUsername) as [user|] eqn:Hk.
    + rewrite (login_known _ _ _ _ Hv Hk). eexists _, _.
      split; [done|]. split; [done|].
      destruct (bool_decide _); by (split; [|split]).
    + rewrite login_unknown by done. eexists _, _.
      split; [done|]. split; [done|]. by split; [|split].
  - rewrite login_invalid by done. eexists _, _.
    split; [done|]. split; [done|].
    assert (Htext : bodyText (ErrorBody (error (validateCredentials
              (VString loginUsername) (VString loginPassword)))) ≠ []
            ∧ bodyText (ErrorBody (error (validateCredentials
              (VString loginUsername) (VString loginPassword))))
              ≠ lit "Username and password must be strings.").
    { unfold bodyText.
      destruct (validate_strings_error _ _ Hv) as [-> | [-> | ->]];
        split; by vm_compute. }
    split; [|done].
    exact (lastResponse_of_response (lit "Login")
             {| status := 400;
                body := ErrorBody (error (validateCredentials
                          (VString loginUsername) (VString loginPassword))) |}
             (proj1 Htext)).
Qed.

(** X13. Through the form: when submitting the registration form gives a
    result with status 201, submitting the login form afterwards with the
    same password and a username that passes validation and normalizes to
    the same key shows "Login", "200" and "Login successful.". *)
Theorem form_register_then_login u p v this result this' :
  handleRegister u p this = (Return result, this') →
  Result.status result = 201 →
  normalizeUsername v = normalizeUsername u →
  valid (validateCredentials (VString v) (VString p)) = true →
  ∃ result',
    handleLogin v p this' = (Return result', this')
    ∧ lastResponse (Some result') =
        Some {| action_line := lit "Login";
                status_line := lit "200";
                message_line := Some (lit "Login successful.") |}.
Proof.
  unfold handleRegister, handleLogin, bind. intros Hsubmit Hst Hnorm Hv.
  destruct (register (VString u) (VString p) this) as [[response|] this1] eqn:Hreg;
    [|discriminate].
  injection Hsubmit as <- <-. simpl in Hst.
  apply register_created_inv in Hreg as (u' & p' & [= <-] & [= <-] & _ & _ & ->);
    [|done].
  rewrite (login_known v p
             {| User.username := normalizeUsername u; User.password := p |}).
  - simpl. rewrite bool_decide_eq_false_2 by (intros H; by apply H).
    by eexists.
  - done.
  - simpl. rewrite Hnorm. apply lookup_insert_eq.
Qed.

End Service.

(** ** The ASCII case mapping *)

Lemma isWhiteSpace_range c :
  isWhiteSpace c = true → c ≤ 13 ∨ c = 32 ∨ 160 ≤ c.
Proof.
  unfold isWhiteSpace.
  rewrite !orb_true_iff, !andb_true_iff, !N.leb_le, !N.eqb_eq. lia.
Qed.

Lemma isWhiteSpace_asciiLowerUnit c :
  isWhiteSpace (asciiLowerUnit c) = isWhiteSpace c.
Proof.
  unfold asciiLowerUnit.
  destruct (N.leb_spec 65 c); [|done].
  destruct (N.leb_spec c 90); [|done]. simpl.
  destruct (isWhiteSpace (c + 32)) eqn:Hup;
    [apply isWhiteSpace_range in Hup; lia|].
  destruct (isWhiteSpace c) eqn:Hc;
    [apply isWhiteSpace_range in Hc; lia|done].
Qed.

Lemma asciiLowerUnit_idem c : asciiLowerUnit (asciiLowerUnit c) = asciiLowerUnit c.
Proof.
  unfold asciiLowerUnit.
  destruct (N.leb_spec 65 c); simpl.
  - destruct (N.leb_spec c 90); simpl.
    + destruct (N.leb_spec (c + 32) 90); [lia|]. by rewrite andb_false_r.
    + destruct (N.leb_spec 65 c); [|lia].
      by destruct (N.leb_spec c 90); [lia|].
  - by destruct (N.leb_spec 65 c); [lia|].
Qed.

Lemma asciiToLowerCase_idem s :
  asciiToLowerCase (asciiToLowerCase s) = asciiToLowerCase s.
Proof.
  unfold asciiToLowerCase. rewrite map_map.
  apply map_ext. apply asciiLowerUnit_idem.
Qed.

Lemma trimStart_asciiToLowerCase s :
  trimStart (asciiToLowerCase s) = asciiToLowerCase (trimStart s).
Proof.
  induction s as [|c t IH]; simpl; [done|].
  rewrite isWhiteSpace_asciiLowerUnit. by destruct (isWhiteSpace c).
Qed.

Lemma trim_asciiToLowerCase s :
  trim (asciiToLowerCase s) = asciiToLowerCase (trim s).
Proof.
  unfold trim, trimEnd. rewrite trimStart_asciiToLowerCase.
  unfold asciiToLowerCase at 1. rewrite <- map_rev.
  fold (asciiToLowerCase (rev (trimStart s))).
  rewrite trimStart_asciiToLowerCase. unfold asciiToLowerCase. by rewrite map_rev.
Qed.

Lemma asciiToLowerCase_trimmed s :
  trim s = s → trim (asciiToLowerCase s) = asciiToLowerCase s.
Proof. intros Hs. by rewrite trim_asciiToLowerCase, Hs. Qed.

(** * The service on concrete inputs

    All inputs below are ASCII, where [asciiToLowerCase] is
    [String.prototype.toLowerCase]. *)

(** The scenario of the specification: [register("  Alice  ", "secret123")]
    answers 201; then [login("alice", "secret123")] answers 200,
    [login("Alice", "wrongpass")] answers 401 and a second
    [register("alice", "secret123")] answers 409. *)
Example scenario :
  let (r1, this) :=
    register asciiToLowerCase (VString (lit "  Alice  ")) (VString (lit "secret123"))
      constructor in
  r1 = Return {| status := 201; body := MessageBody (lit "Registration successful.") |}
  ∧ fst (login asciiToLowerCase (VString (lit "alice")) (VString (lit "secret123")) this)
    = Return {| status := 200; body := MessageBody (lit "Login successful.") |}
  ∧ fst (login asciiToLowerCase (VString (lit "Alice")) (VString (lit "wrongpass")) this)
    = Return {| status := 401; body := ErrorBody (lit "Invalid username or password.") |}
  ∧ fst (register asciiToLowerCase (VString (lit "alice")) (VString (lit "secret123")) this)
    = Return {| status := 409; body := ErrorBody (lit "Username already exists.") |}.
Proof. vm_compute. done. Qed.

(** A number as username is rejected with the "must be strings" message. *)
Example numeric_username :
  fst (register asciiToLowerCase (VOther TNumber) (VString (lit "secret123")) constructor)
  = Return {| status := 400;
              body := ErrorBody (lit "Username and password must be strings.") |}.
Proof. reflexivity. Qed.

(** C2. The store does hold the password as it was typed: after
    [register("alice", "secret123")] on a new service, the account under
    ["alice"] has ["secret123"] itself as its [password] field, not a value
    derived from it. *)
Theorem register_keeps_plaintext_password :
  let this :=
    snd (register asciiToLowerCase (VString (lit "alice")) (VString (lit "secret123"))
           constructor) in
  reachable asciiToLowerCase this
  ∧ users this !! lit "alice" =
      Some {| User.username := lit "alice"; User.password := lit "secret123" |}.
Proof.
  split.
  - apply rtc_once. apply call_register.
  - vm_compute. reflexivity.
Qed.

(** C9, as stated, fails: [register("  Alice  ", "secret123")] answers 201
    and creates an account whose [username] is ["alice"], the key; the
    trimmed original ["Alice"] is in neither of its two fields. *)
Lemma register_drops_original_casing :
  trim (lit "  Alice  ") = lit "Alice"
  ∧ register asciiToLowerCase (VString (lit "  Alice  ")) (VString (lit "secret123"))
      constructor =
    (Return {| status := 201; body := MessageBody (lit "Registration successful.") |},
     {| users := {[ lit "alice" :=
                    {| User.username := lit "alice";
                       User.password := lit "secret123" |} ]} |})
  ∧ lit "alice" ≠ lit "Alice"
  ∧ lit "secret123" ≠ lit "Alice".
Proof.
  split; [by vm_compute|]. split; [by vm_compute|]. split; by vm_compute.
Qed.

(** ** Instances of the claims *)

Lemma login_accepts_every_variant_witness :
  let this' :=
    snd (register asciiToLowerCase (VString (lit "  Alice  ")) (VString (lit "secret123"))
           constructor) in
  login asciiToLowerCase (VString (lit "ALICE ")) (VString (lit "secret123")) this' =
    (Return {| status := 200; body := MessageBody (lit "Login successful.") |}, this').
Proof.
  simpl.
  eapply (login_accepts_every_variant asciiToLowerCase
            (lit "  Alice  ") (lit "secret123") (lit "ALICE ") constructor).
  - vm_compute. reflexivity.
  - reflexivity.
  - vm_compute. reflexivity.
  - vm_compute. reflexivity.
Defined.

Lemma register_then_login_witness :
  ∃ this',
    register asciiToLowerCase (VString (lit "Bob")) (VString (lit "hunter22")) constructor =
      (Return {| status := 201;
                 body := MessageBody (lit "Registration successful.") |},
       this')
    ∧ login asciiToLowerCase (VString (lit "Bob")) (VString (lit "hunter22")) this' =
      (Return {| status := 200; body := MessageBody (lit "Login successful.") |},
       this').
Proof.
  apply (register_then_login asciiToLowerCase (lit "Bob") (lit "hunter22") constructor).
  - vm_compute. reflexivity.
  - vm_compute. reflexivity.
Defined.

Lemma register_duplicate_rejected_witness :
  let this :=
    snd (register asciiToLowerCase (VString (lit "  Alice  ")) (VString (lit "secret123"))
           constructor) in
  register asciiToLowerCase (VString (lit "alice")) (VString (lit "other-password")) this =
    (Return {| status := 409; body := ErrorBody (lit "Username already exists.") |},
     this)
  ∧ users (snd (register asciiToLowerCase (VString (lit "alice"))
                  (VString (lit "other-password")) this))
      !! normalizeUsername asciiToLowerCase (lit "alice")
    = Some {| User.username := lit "alice"; User.password := lit "secret123" |}
  ∧ size (users (snd (register asciiToLowerCase (VString (lit "alice"))
                        (VString (lit "other-password")) this)))
    = size (users this).
Proof.
  simpl.
  apply (register_duplicate_rejected asciiToLowerCase
           (lit "alice") (lit "other-password")).
  - vm_compute. reflexivity.
  - vm_compute. reflexivity.
Defined.

Lemma validateCredentials_rules_witness :
  validateCredentials (VString (lit " ab ")) (VString (lit "secret")) =
    {| valid := false; error := lit "Username must be at least 3 characters." |}
  ∧ validateCredentials (VString (lit "abc")) (VString (lit "secre")) =
    {| valid := false; error := lit "Password must be at least 6 characters." |}
  ∧ validateCredentials (VString (lit " abc ")) (VString (lit "secret")) =
    {| valid := true; error := lit "" |}
  ∧ validateCredentials (VString (lit "abc")) (VOther TUndefined) =
    {| valid := false; error := lit "Username and password must be strings." |}.
Proof.
  destruct (validateCredentials_rules asciiToLowerCase)
    as (Hstrings & _ & Hshort & Hpassword & Hvalid & _).
  split; [|split; [|split]].
  - apply Hshort; [by vm_compute | by vm_compute].
  - apply Hpassword; [by vm_compute | by vm_compute].
  - apply Hvalid; [by vm_compute | by vm_compute].
  - apply Hstrings. right. by vm_compute.
Defined.

Lemma reachable_unique_accounts_witness :
  let this :=
    snd (register asciiToLowerCase (VString (lit "Bob")) (VString (lit "hunter22"))
      (snd (register asciiToLowerCase (VString (lit " Alice ")) (VString (lit "secret123"))
         constructor))) in
  (∀ key user, users this !! key = Some user →
     normalizeUsername asciiToLowerCase key = key)
  ∧ (∀ key1 key2 user1 user2,
       users this !! key1 = Some user1 →
       users this !! key2 = Some user2 →
       normalizeUsername asciiToLowerCase (User.username user1)
         = normalizeUsername asciiToLowerCase (User.username user2) →
       key1 = key2 ∧ user1 = user2).
Proof.
  simpl.
  apply (reachable_unique_accounts asciiToLowerCase
           asciiToLowerCase_idem asciiToLowerCase_trimmed).
  eapply rtc_l; [apply call_register|]. apply rtc_once. apply call_register.
Defined.

Lemma login_failures_indistinguishable_witness :
  let this :=
    snd (register asciiToLowerCase (VString (lit "Alice")) (VString (lit "secret123"))
           constructor) in
  fst (login asciiToLowerCase (VString (lit "mallory")) (VString (lit "secret123")) this) =
    Return {| status := 401; body := ErrorBody (lit "Invalid username or password.") |}
  ∧ fst (login asciiToLowerCase (VString (lit "alice")) (VString (lit "wrongpass")) this) =
    Return {| status := 401; body := ErrorBody (lit "Invalid username or password.") |}
  ∧ fst (login asciiToLowerCase (VString (lit "mallory")) (VString (lit "secret123")) this)
    = fst (login asciiToLowerCase (VString (lit "alice")) (VString (lit "wrongpass")) this).
Proof.
  simpl.
  apply (login_failures_indistinguishable asciiToLowerCase
           (lit "mallory") (lit "secret123") _ (lit "alice") (lit "wrongpass")
           {| User.username := lit "alice"; User.password := lit "secret123" |}).
  - vm_compute. reflexivity.
  - vm_compute. reflexivity.
  - vm_compute. reflexivity.
  - vm_compute. reflexivity.
  - vm_compute. discriminate.
Defined.

Lemma register_stores_normalized_username_witness :
  ∃ user,
    users (snd (register asciiToLowerCase (VString (lit "  Alice  "))
                  (VString (lit "secret123")) constructor))
      !! normalizeUsername asciiToLowerCase (lit "  Alice  ") = Some user
    ∧ User.username user = normalizeUsername asciiToLowerCase (lit "  Alice  ").
Proof.
  eapply (register_stores_normalized_username asciiToLowerCase
            (lit "  Alice  ") (lit "secret123") constructor).
  - vm_compute. reflexivity.
  - reflexivity.
Defined.

Lemma login_password_exact_witness :
  let this1 :=
    snd (register asciiToLowerCase (VString (lit "Alice")) (VString (lit "secret123"))
           constructor) in
  let this2 :=
    snd (register asciiToLowerCase (VString (lit "alice")) (VString (lit "Secret123"))
           this1) in
  (fst (login asciiToLowerCase (VString (lit " ALICE ")) (VString (lit "Secret123")) this2) =
     Return {| status := 200; body := MessageBody (lit "Login successful.") |}
   ↔ lit "Secret123" = lit "secret123")
  ∧ (lit "Secret123" ≠ lit "secret123" →
     fst (login asciiToLowerCase (VString (lit " ALICE ")) (VString (lit "Secret123")) this2) =
       Return {| status := 401;
                 body := ErrorBody (lit "Invalid username or password.") |}).
Proof.
  simpl.
  eapply (login_password_exact asciiToLowerCase
            (lit "Alice") (lit "secret123") (lit " ALICE ") (lit "Secret123")
            constructor).
  - vm_compute. reflexivity.
  - reflexivity.
  - apply rtc_once. apply call_register.
  - vm_compute. reflexivity.
  - vm_compute. reflexivity.
Defined.

(** ** Instances of the further properties *)

Lemma asciiToLowerCase_length s :
  (length s ≤ length (asciiToLowerCase s))%nat.
Proof. unfold asciiToLowerCase. by rewrite length_map. Qed.

Lemma username_padding_ignored_witness :
  register asciiToLowerCase (VString (lit "  " ++ lit "Alice" ++ lit " "))
    (VString (lit "secret123")) constructor
    = register asciiToLowerCase (VString (lit "Alice")) (VString (lit "secret123"))
        constructor
  ∧ login asciiToLowerCase (VString (lit "  " ++ lit "Alice" ++ lit " "))
      (VString (lit "secret123")) constructor
    = login asciiToLowerCase (VString (lit "Alice")) (VString (lit "secret123"))
        constructor.
Proof.
  apply (username_padding_ignored asciiToLowerCase (lit "  ") (lit " ")).
  - repeat constructor.
  - repeat constructor.
Defined.

Lemma register_adds_one_account_witness :
  let this :=
    snd (register asciiToLowerCase (VString (lit "Bob")) (VString (lit "hunter22"))
           constructor) in
  let this' :=
    snd (register asciiToLowerCase (VString (lit " Alice ")) (VString (lit "secret123"))
           this) in
  ∃ u user,
    VString (lit " Alice ") = VString u
    ∧ users this !! normalizeUsername asciiToLowerCase u = None
    ∧ users this' !! normalizeUsername asciiToLowerCase u = Some user
    ∧ User.username user = normalizeUsername asciiToLowerCase u
    ∧ size (users this') = S (size (users this))
    ∧ ∀ key, key ≠ normalizeUsername asciiToLowerCase u →
        users this' !! key = users this !! key.
Proof.
  simpl.
  eapply (register_adds_one_account asciiToLowerCase
            (VString (lit " Alice ")) (VString (lit "secret123"))).
  - vm_compute. reflexivity.
  - reflexivity.
Defined.

Lemma store_only_grows_witness :
  let this :=
    snd (register asciiToLowerCase (VString (lit "Bob")) (VString (lit "hunter22"))
           constructor) in
  let this' :=
    snd (register asciiToLowerCase (VString (lit " Alice ")) (VString (lit "secret123"))
           this) in
  users this ⊆ users this' ∧ (size (users this) ≤ size (users this'))%nat.
Proof.
  simpl. apply (store_only_grows asciiToLowerCase).
  apply rtc_once. apply call_register.
Defined.

Lemma reachable_accounts_validated_witness :
  let this :=
    snd (register asciiToLowerCase (VString (lit " Alice ")) (VString (lit "secret123"))
           constructor) in
  let user := {| User.username := lit "alice"; User.password := lit "secret123" |} in
  User.username user = lit "alice"
  ∧ MIN_PASSWORD_LENGTH ≤ strlen (User.password user)
  ∧ ∃ u, lit "alice" = normalizeUsername asciiToLowerCase u
         ∧ MIN_USERNAME_LENGTH ≤ strlen (trim u).
Proof.
  simpl.
  refine (reachable_accounts_validated asciiToLowerCase
            (snd (register asciiToLowerCase (VString (lit " Alice "))
                    (VString (lit "secret123")) constructor))
            (lit "alice")
            {| User.username := lit "alice"; User.password := lit "secret123" |}
            _ _).
  - apply rtc_once. apply call_register.
  - vm_compute. reflexivity.
Defined.

Lemma first_registration_wins_witness :
  let this1 :=
    snd (register asciiToLowerCase (VString (lit "Alice")) (VString (lit "secret123"))
           constructor) in
  let this2 :=
    snd (login asciiToLowerCase (VString (lit "alice")) (VString (lit "secret123"))
           this1) in
  register asciiToLowerCase (VString (lit " ALICE ")) (VString (lit "another-one")) this2 =
    (Return {| status := 409; body := ErrorBody (lit "Username already exists.") |},
     this2)
  ∧ users this2 !! normalizeUsername asciiToLowerCase (lit "Alice")
    = users this1 !! normalizeUsername asciiToLowerCase (lit "Alice").
Proof.
  simpl.
  eapply (first_registration_wins asciiToLowerCase
            (lit "Alice") (lit "secret123") (lit " ALICE ") (lit "another-one")
            constructor).
  - vm_compute. reflexivity.
  - reflexivity.
  - apply rtc_once. apply call_login.
  - vm_compute. reflexivity.
  - vm_compute. reflexivity.
Defined.

Lemma login_needs_registration_witness :
  ∃ i u v,
    VString (lit " ALICE ") = VString v
    ∧ [Login (VString (lit "alice")) (VString (lit "secret123"));
       Register (VString (lit "Alice")) (VString (lit "secret123"));
       Register (VString (lit "alice")) (VString (lit "other-password"))] !! i
      = Some (Register (VString u) (VString (lit "secret123")))
    ∧ normalizeUsername asciiToLowerCase u = normalizeUsername asciiToLowerCase v
    ∧ [Return {| status := 401; body := ErrorBody (lit "Invalid username or password.") |};
       Return {| status := 201; body := MessageBody (lit "Registration successful.") |};
       Return {| status := 409; body := ErrorBody (lit "Username already exists.") |}] !! i
      = Some (Return {| status := 201;
                        body := MessageBody (lit "Registration successful.") |}).
Proof.
  eapply (login_needs_registration asciiToLowerCase).
  - vm_compute. reflexivity.
  - vm_compute. reflexivity.
  - reflexivity.
Defined.

Lemma every_account_can_log_in_witness :
  let this :=
    snd (register asciiToLowerCase (VString (lit " Alice ")) (VString (lit "secret123"))
           constructor) in
  login asciiToLowerCase (VString (lit "alice")) (VString (lit "secret123")) this =
    (Return {| status := 200; body := MessageBody (lit "Login successful.") |},
     this).
Proof.
  simpl.
  apply (every_account_can_log_in asciiToLowerCase
           asciiToLowerCase_idem asciiToLowerCase_trimmed asciiToLowerCase_length
           _ (lit "alice")
           {| User.username := lit "alice"; User.password := lit "secret123" |}).
  - apply rtc_once. apply call_register.
  - vm_compute. reflexivity.
Defined.

Lemma form_register_then_login_witness :
  let this' :=
    snd (handleRegister asciiToLowerCase (lit "  Alice  ") (lit "secret123")
           constructor) in
  ∃ result',
    handleLogin asciiToLowerCase (lit "ALICE") (lit "secret123") this'
      = (Return result', this')
    ∧ lastResponse (Some result') =
        Some {| action_line := lit "Login";
                status_line := lit "200";
                message_line := Some (lit "Login successful.") |}.
Proof.
  simpl.
  eapply (form_register_then_login asciiToLowerCase
            (lit "  Alice  ") (lit "secret123") (lit "ALICE") constructor).
  - vm_compute. reflexivity.
  - reflexivity.
  - vm_compute. reflexivity.
  - vm_compute. reflexivity.
Defined.

(** * The Flask service of the report ([assignment_report.md])

    The report holds two versions of a Python [AuthService]: the initial
    one, whose [login] looks the raw username up, and the fixed one
    ([app.py]). Both are embedded here from the report's listings.

    - A Python [str] is the list of its code points; [len] is [length].
    - [str.strip()] removes the characters for which [str.isspace] holds.
    - [str.lower()] and Werkzeug's [generate_password_hash] and
      [check_password_hash] are Section variables. Werkzeug draws a random
      salt at each call of [generate_password_hash]: the draw is the extra
      argument [salt] of [register]. *)

Module Py.

Abbreviation str := (list N).

(** An argument of the service, seen through [isinstance(x, str)]. *)
Inductive object :=
  | Str (s : str)
  | NotStr.

(** [str.isspace] on one character. *)
Definition isspace (c : N) : bool :=
  (9 <=? c) && (c <=? 13)
  || (28 <=? c) && (c <=? 32)
  || (c =? 133) || (c =? 160) || (c =? 5760)
  || (8192 <=? c) && (c <=? 8202)
  || (c =? 8232) || (c =? 8233) || (c =? 8239) || (c =? 8287)
  || (c =? 12288).

Fixpoint lstrip (s : str) : str :=
  match s with
  | [] => []
  | c :: t => if isspace c then lstrip t else s
  end.

Definition rstrip (s : str) : str := rev (lstrip (rev s)).

Definition strip (s : str) : str := rstrip (lstrip s).

Definition len (s : str) : N := N.of_nat (length s).

(** The dataclass [User] and the service object with its dict. *)
Record User := { username : str; password_hash : str }.

Record AuthService := { _users : gmap (list N) User }.

(** [AuthService()] *)
Definition __init__ : AuthService := {| _users := ∅ |}.

(** A call returns its [(dict, int)] pair, or raises [AttributeError] (a
    [str] method called on something else). *)
Inductive outcome :=
  | Returns (response : Body) (status : N)
  | RaisesAttributeError.

End Py.

(** ** The initial version (Section 1 of the report) *)

Module InitialVersion.

Section Listing.

Variable lower : Py.str → Py.str.
Variable generate_password_hash : Py.str → Py.str → Py.str.
Variable check_password_hash : Py.str → Py.str → bool.

Definition normalize_username (username : Py.str) : Py.str :=
  lower (Py.strip username).

Definition validate_credentials (username password : Py.object) : bool * Py.str :=
  match username, password with
  | Py.Str username, Py.Str password =>
      if Py.len (Py.strip username) <? 3 then
        (false, lit "Username must be at least 3 characters.")
      else if Py.len password <? 6 then
        (false, lit "Password must be at least 6 characters.")
      else (true, lit "")
  | _, _ => (false, lit "Username and password must be strings.")
  end.

Definition register (salt : Py.str) (username password : Py.object)
    (self : Py.AuthService) : Py.outcome * Py.AuthService :=
  let '(valid, error) := validate_credentials username password in
  if negb valid then (Py.Returns (ErrorBody error) 400, self)
  else
    match username, password with
    | Py.Str username, Py.Str password =>
        let normalized_username := normalize_username username in
        if bool_decide (is_Some (Py._users self !! normalized_username)) then
          (Py.Returns (ErrorBody (lit "Username already exists.")) 409, self)
        else
          (Py.Returns (MessageBody (lit "Registration successful.")) 201,
           {| Py._users :=
                <[normalized_username :=
                    {| Py.username := normalized_username;
                       Py.password_hash := generate_password_hash salt password |}]>
                  (Py._users self) |})
    | _, _ => (Py.RaisesAttributeError, self)
    end.

(** [self._users.get(username)]: the username as it was typed. *)
Definition login (username password : Py.object) (self : Py.AuthService)
  : Py.outcome * Py.AuthService :=
  let '(valid, error) := validate_credentials username password in
  if negb valid then (Py.Returns (ErrorBody error) 400, self)
  else
    match username, password with
    | Py.Str username, Py.Str password =>
        match Py._users self !! username with
        | None =>
            (Py.Returns (ErrorBody (lit "Invalid username or password.")) 401, self)
        | Some user =>
            if negb (check_password_hash (Py.password_hash user) password) then
              (Py.Returns (ErrorBody (lit "Invalid username or password.")) 401, self)
            else (Py.Returns (MessageBody (lit "Login successful.")) 200, self)
        end
    | _, _ => (Py.RaisesAttributeError, self)
    end.

(** One call on the service; the states reachable from a new service. *)
Inductive call (self : Py.AuthService) : Py.AuthService → Prop :=
  | call_register salt username password :
      call self (snd (register salt username password self))
  | call_login username password :
      call self (snd (login username password self)).

Definition reachable (self : Py.AuthService) : Prop := rtc call Py.__init__ self.

End Listing.

End InitialVersion.

(** ** The fixed version (Section 3 of the report, [app.py]) *)

Module AppPy.

Section Listing.

Variable lower : Py.str → Py.str.
Variable generate_password_hash : Py.str → Py.str → Py.str.
Variable check_password_hash : Py.str → Py.str → bool.

Definition normalize_username (username : Py.str) : Py.str :=
  lower (Py.strip username).

Definition hash_password (salt password : Py.str) : Py.str :=
  generate_password_hash salt password.

Definition verify_password (password password_hash : Py.str) : bool :=
  check_password_hash password_hash password.

Definition validate_credentials (username password : Py.object) : bool * Py.str :=
  match username, password with
  | Py.Str username, Py.Str password =>
      let stripped_username := Py.strip username in
      if falsy stripped_username then
        (false, lit "Username cannot be empty.")
      else if Py.len stripped_username <? 3 then
        (false, lit "Username must be at least 3 characters.")
      else if Py.len password <? 6 then
        (false, lit "Password must be at least 6 characters.")
      else (true, lit "")
  | _, _ => (false, lit "Username and password must be strings.")
  end.

Definition register (salt : Py.str) (username password : Py.object)
    (self : Py.AuthService) : Py.outcome * Py.AuthService :=
  let '(valid, error) := validate_credentials username password in
  if negb valid then (Py.Returns (ErrorBody error) 400, self)
  else
    match username, password with
    | Py.Str username, Py.Str password =>
        let normalized_username := normalize_username username in
        if bool_decide (is_Some (Py._users self !! normalized_username)) then
          (Py.Returns (ErrorBody (lit "Username already exists.")) 409, self)
        else
          let password_hash := hash_password salt password in
          (Py.Returns (MessageBody (lit "Registration successful.")) 201,
           {| Py._users :=
                <[normalized_username :=
                    {| Py.username := normalized_username;
                       Py.password_hash := password_hash |}]>
                  (Py._users self) |})
    | _, _ => (Py.RaisesAttributeError, self)
    end.

Definition login (username password : Py.object) (self : Py.AuthService)
  : Py.outcome * Py.AuthService :=
  let '(valid, error) := validate_credentials username password in
  if negb valid then (Py.Returns (ErrorBody error) 400, self)
  else
    match username, password with
    | Py.Str username, Py.Str password =>
        let normalized_username := normalize_username username in
        match Py._users self !! normalized_username with
        | None =>
            (Py.Returns (ErrorBody (lit "Invalid username or password.")) 401, self)
        | Some user =>
            if negb (verify_password password (Py.password_hash user)) then
              (Py.Returns (ErrorBody (lit "Invalid username or password.")) 401, self)
            else (Py.Returns (MessageBody (lit "Login successful.")) 200, self)
        end
    | _, _ => (Py.RaisesAttributeError, self)
    end.

End Listing.

End AppPy.

(** ** [strip] *)





(** ** The initial version: which logins get through *)

Section InitialProperties.

Variable lower : Py.str → Py.str.
Variable generate_password_hash : Py.str → Py.str → Py.str.
Variable check_password_hash : Py.str → Py.str → bool.



Section Normalized.

(** Two facts about [str.lower]: lowering a lowered string changes nothing,
    and lowering does not put white space at either end of a string that
    has none there. *)
Hypothesis lower_idem : ∀ s, lower (lower s) = lower s.
Hypothesis lower_stripped : ∀ s, Py.strip s = s → Py.strip (lower s) = lower s.



End Normalized.

(** X15. The initial version does work for a user who types the key
    itself: after [register(u, p)] answered 201, [login] with the normalized
    form of [u] and [p] is answered with 200, provided that form passes
    validation and the hash made at registration verifies [p]. *)
Theorem initial_login_accepts_normalized salt u p self body self' :
  InitialVersion.register lower generate_password_hash
    salt (Py.Str u) (Py.Str p) self = (Py.Returns body 201, self') →
  fst (InitialVersion.validate_credentials
         (Py.Str (InitialVersion.normalize_username lower u)) (Py.Str p)) = true →
  check_password_hash (generate_password_hash salt p) p = true →
  InitialVersion.login check_password_hash
    (Py.Str (InitialVersion.normalize_username lower u)) (Py.Str p) self' =
    (Py.Returns (MessageBody (lit "Login successful.")) 200, self').
Proof.
  unfold InitialVersion.register, InitialVersion.login. intros Hreg Hv Hcheck.
  destruct (InitialVersion.validate_credentials (Py.Str u) (Py.Str p))
    as [[|] e]; simpl in Hreg; [|discriminate].
  case_bool_decide; [discriminate|]. injection Hreg as _ <-.
  destruct (InitialVersion.validate_credentials _ (Py.Str p)) as [ok e'].
  simpl in Hv. subst ok. simpl.
  rewrite lookup_insert_eq. simpl. by rewrite Hcheck.
Qed.

End InitialProperties.

(** ** The fixed version *)

Section FixedProperties.

Variable lower : Py.str → Py.str.
Variable generate_password_hash : Py.str → Py.str → Py.str.
Variable check_password_hash : Py.str → Py.str → bool.

(** X16. The fix: after [register(u, p)] answered 201, [login(v, p)] is
    answered with 200 for every username [v] that passes validation and
    normalizes to the same key as [u], provided the hash made at
    registration verifies [p]. *)
Theorem fixed_login_accepts_every_variant salt u p v self body self' :
  AppPy.register lower generate_password_hash
    salt (Py.Str u) (Py.Str p) self = (Py.Returns body 201, self') →
  AppPy.normalize_username lower v = AppPy.normalize_username lower u →
  fst (AppPy.validate_credentials (Py.Str v) (Py.Str p)) = true →
  check_password_hash (generate_password_hash salt p) p = true →
  AppPy.login lower check_password_hash (Py.Str v) (Py.Str p) self' =
    (Py.Returns (MessageBody (lit "Login successful.")) 200, self').
Proof.
  unfold AppPy.register, AppPy.login. intros Hreg Hnorm Hv Hcheck.
  destruct (AppPy.validate_credentials (Py.Str u) (Py.Str p))
    as [[|] e]; simpl in Hreg; [|discriminate].
  case_bool_decide; [discriminate|]. injection Hreg as _ <-.
  destruct (AppPy.validate_credentials (Py.Str v) (Py.Str p)) as [ok e'].
  simpl in Hv. subst ok. simpl.
  rewrite Hnorm, lookup_insert_eq. simpl.
  unfold AppPy.verify_password, AppPy.hash_password. by rewrite Hcheck.
Qed.

End FixedProperties.

(** X17. The two versions validate alike: they accept the same arguments,
    and give the same error except for a username that is empty after
    stripping, which the initial version calls too short and the fixed one
    empty. *)
Theorem validators_agree username password :
  fst (InitialVersion.validate_credentials username password)
    = fst (AppPy.validate_credentials username password)
  ∧ (InitialVersion.validate_credentials username password
       = AppPy.validate_credentials username password
     ∨ ∃ u p,
         username = Py.Str u ∧ password = Py.Str p ∧ Py.strip u = []
         ∧ InitialVersion.validate_credentials username password
           = (false, lit "Username must be at least 3 characters.")
         ∧ AppPy.validate_credentials username password
           = (false, lit "Username cannot be empty.")).
Proof.
  unfold InitialVersion.validate_credentials, AppPy.validate_credentials.
  destruct username as [u|], password as [p|]; try by auto.
  destruct (Py.strip u) as [|c t] eqn:Hu; simpl.
  - split; [done|]. right. by exists u, p.
  - destruct (Py.len (c :: t) <? 3); [by auto|].
    destruct (Py.len p <? 6); by auto.
Qed.

(** ** Instances for the report's versions

    [str.lower] on ASCII input is [asciiToLowerCase]; the hash below, the
    salt followed by the password, only stands in for Werkzeug's. *)






Lemma initial_login_accepts_normalized_witness :
  let self' :=
    snd (InitialVersion.register asciiToLowerCase (λ salt p, salt ++ p)
           (lit "x7") (Py.Str (lit " Alice ")) (Py.Str (lit "secret123"))
           Py.__init__) in
  InitialVersion.login (λ h p, bool_decide (drop 2 h = p))
    (Py.Str (InitialVersion.normalize_username asciiToLowerCase (lit " Alice ")))
    (Py.Str (lit "secret123")) self' =
    (Py.Returns (MessageBody (lit "Login successful.")) 200, self').
Proof.
  simpl.
  eapply (initial_login_accepts_normalized asciiToLowerCase
            (λ salt p, salt ++ p) (λ h p, bool_decide (drop 2 h = p))
            (lit "x7") (lit " Alice ") (lit "secret123") Py.__init__).
  - vm_compute. reflexivity.
  - vm_compute. reflexivity.
  - vm_compute. reflexivity.
Defined.

Lemma fixed_login_accepts_every_variant_witness :
  let self' :=
    snd (AppPy.register asciiToLowerCase (λ salt p, salt ++ p)
           (lit "x7") (Py.Str (lit " Alice ")) (Py.Str (lit "secret123"))
           Py.__init__) in
  AppPy.login asciiToLowerCase (λ h p, bool_decide (drop 2 h = p))
    (Py.Str (lit "Alice")) (Py.Str (lit "secret123")) self' =
    (Py.Returns (MessageBody (lit "Login successful.")) 200, self').
Proof.
  simpl.
  eapply (fixed_login_accepts_every_variant asciiToLowerCase
            (λ salt p, salt ++ p) (λ h p, bool_decide (drop 2 h = p))
            (lit "x7") (lit " Alice ") (lit "secret123") (lit "Alice") Py.__init__).
  - vm_compute. reflexivity.
  - vm_compute. reflexivity.
  - vm_compute. reflexivity.
  - vm_compute. reflexivity.
Defined.
